(** * Sorter interface firmware: protocol layer

    A shallow embedding of [sorter_interface_firmware.cpp]: the CRC-32
    routine, the receive loop of [main] with its framing, addressing and
    checksum gates, and the command switch that turns a verified message
    into a response.

    Conventions.  A [uint8_t], [uint32_t] or [int32_t] is a [Z] with the
    wrap-around written out ([u8], [u32], [s32]).  A C array is a list;
    [steppers[]] is updated by index with stdpp's list insert, the GPIO
    output latches are a [gmap] from pin number to level.  Calls into the
    collaborators ([Stepper], [TMC2209], the GPIO bank) are appended to a
    trace, so that "nothing was invoked" is a statement about the trace. *)

From Stdlib Require Import ZArith List Lia Bool String Ascii DecimalString.
From stdpp Require Import base option list gmap.
Import ListNotations.

Local Open Scope Z_scope.

(** ** Machine integers *)

Definition u8 (z : Z) : Z := z mod 256.
Definition u32 (z : Z) : Z := z mod 2 ^ 32.

(** Reinterpretation of a 32-bit pattern as [int32_t]. *)
Definition s32 (z : Z) : Z :=
  let w := u32 z in if w <? 2 ^ 31 then w else w - 2 ^ 32.

(** [buf[i]] read through a [uint8_t*]; indices outside the list read 0
    (every access the model makes is guarded or within the array). *)
Definition byte_at (buf : list Z) (i : Z) : Z :=
  if i <? 0 then 0 else u8 (nth (Z.to_nat i) buf 0).

(** [*((uint32_t* )(buf + off))] on the little-endian target. *)
Definition read_u32 (buf : list Z) (off : Z) : Z :=
  byte_at buf off
  + 2 ^ 8 * byte_at buf (off + 1)
  + 2 ^ 16 * byte_at buf (off + 2)
  + 2 ^ 24 * byte_at buf (off + 3).

(** The four bytes [memcpy] stores for a [uint32_t]. *)
Definition bytes_of_u32 (w : Z) : list Z :=
  [u8 w; u8 (Z.shiftr w 8); u8 (Z.shiftr w 16); u8 (Z.shiftr w 24)].

(** ** Integrity: [crc32] *)

Definition CRC_POLY : Z := 0xEDB88320.

(** Body of the inner [for (j ...)] loop. *)
Definition crc32_bit (crc : Z) : Z :=
  if negb (Z.land crc 1 =? 0)
  then Z.lxor (Z.shiftr crc 1) CRC_POLY
  else Z.shiftr crc 1.

(** [for (int j = 0; j < 8; j++)], counting the iterations left. *)
Fixpoint crc32_bits (n : nat) (crc : Z) : Z :=
  match n with
  | O => crc
  | S n' => crc32_bits n' (crc32_bit crc)
  end.

(** [for (size_t i = 0; i < length; i++)] over [data[i]]. *)
Fixpoint crc32_loop (data : list Z) (crc : Z) : Z :=
  match data with
  | [] => crc
  | b :: rest => crc32_loop rest (crc32_bits 8 (Z.lxor crc (u8 b)))
  end.

Definition crc32 (data : list Z) : Z :=
  u32 (Z.lnot (crc32_loop data 0xFFFFFFFF)).

(** The checksum as the specification words it: start from [0xFFFFFFFF],
    XOR each byte into the low byte, halve eight times adding the
    polynomial whenever a one is shifted out, complement the 32 bits. *)
Definition crc32_spec_step (r : Z) : Z :=
  Z.lxor (r / 2) (if Z.odd r then 0xEDB88320 else 0).

Definition crc32_spec_byte (r b : Z) : Z :=
  Nat.iter 8 crc32_spec_step (Z.lxor r (b mod 256)).

Definition crc32_spec (data : list Z) : Z :=
  Z.lxor (fold_left crc32_spec_byte data 0xFFFFFFFF) 0xFFFFFFFF.

Definition ascii_bytes (s : string) : list Z :=
  List.map (fun c => Z.of_nat (nat_of_ascii c)) (list_ascii_of_string s).

(** ** Wire constants ([enum CommandCodes]) *)

Inductive CommandCodes : Set :=
| CMD_INIT | CMD_PING
| CMD_STEPPER_MOVE_STEPS | CMD_STEPPER_MOVE_AT_SPEED
| CMD_STEPPER_SET_SPEED_LIMITS | CMD_STEPPER_SET_ACCELERATION
| CMD_STEPPER_IS_STOPPED | CMD_STEPPER_GET_POSITION
| CMD_STEPPER_SET_POSITION | CMD_STEPPER_HOME
| CMD_STEPPER_DRV_SET_ENABLED | CMD_STEPPER_DRV_SET_MICROSTEPS
| CMD_STEPPER_DRV_SET_CURRENT
| CMD_STEPPER_DRV_READ_REGISTER | CMD_STEPPER_DRV_WRITE_REGISTER
| CMD_DIGITAL_READ | CMD_DIGITAL_WRITE
| CMD_SERVO_SET_ENABLED | CMD_SERVO_MOVE_TO
| CMD_SERVO_SET_SPEED_LIMITS | CMD_SERVO_SET_ACCELERATION
| CMD_BAD_COMMAND.

Definition code (c : CommandCodes) : Z :=
  match c with
  | CMD_INIT => 0x01
  | CMD_PING => 0x02
  | CMD_STEPPER_MOVE_STEPS => 0x10
  | CMD_STEPPER_MOVE_AT_SPEED => 0x11
  | CMD_STEPPER_SET_SPEED_LIMITS => 0x12
  | CMD_STEPPER_SET_ACCELERATION => 0x13
  | CMD_STEPPER_IS_STOPPED => 0x14
  | CMD_STEPPER_GET_POSITION => 0x15
  | CMD_STEPPER_SET_POSITION => 0x16
  | CMD_STEPPER_HOME => 0x17
  | CMD_STEPPER_DRV_SET_ENABLED => 0x20
  | CMD_STEPPER_DRV_SET_MICROSTEPS => 0x21
  | CMD_STEPPER_DRV_SET_CURRENT => 0x22
  | CMD_STEPPER_DRV_READ_REGISTER => 0x2e
  | CMD_STEPPER_DRV_WRITE_REGISTER => 0x2f
  | CMD_DIGITAL_READ => 0x30
  | CMD_DIGITAL_WRITE => 0x31
  | CMD_SERVO_SET_ENABLED => 0x40
  | CMD_SERVO_MOVE_TO => 0x41
  | CMD_SERVO_SET_SPEED_LIMITS => 0x42
  | CMD_SERVO_SET_ACCELERATION => 0x43
  | CMD_BAD_COMMAND => 0xFF
  end.

Definition all_command_codes : list CommandCodes :=
  [ CMD_INIT; CMD_PING; CMD_STEPPER_MOVE_STEPS; CMD_STEPPER_MOVE_AT_SPEED;
    CMD_STEPPER_SET_SPEED_LIMITS; CMD_STEPPER_SET_ACCELERATION;
    CMD_STEPPER_IS_STOPPED; CMD_STEPPER_GET_POSITION;
    CMD_STEPPER_SET_POSITION; CMD_STEPPER_HOME;
    CMD_STEPPER_DRV_SET_ENABLED; CMD_STEPPER_DRV_SET_MICROSTEPS;
    CMD_STEPPER_DRV_SET_CURRENT; CMD_STEPPER_DRV_READ_REGISTER;
    CMD_STEPPER_DRV_WRITE_REGISTER; CMD_DIGITAL_READ; CMD_DIGITAL_WRITE;
    CMD_SERVO_SET_ENABLED; CMD_SERVO_MOVE_TO; CMD_SERVO_SET_SPEED_LIMITS;
    CMD_SERVO_SET_ACCELERATION; CMD_BAD_COMMAND ].

(** The enumerator a command byte names, if any: the [case] label the
    [switch] would jump to. *)
Definition command_of_byte (b : Z) : option CommandCodes :=
  List.find (fun c => code c =? b) all_command_codes.

(** ** Board configuration (the block hard-coded in the firmware) *)

Definition DEVICE_NAME : string := "FEEDER MB".
Definition DEVICE_ADDRESS : Z := 0x00.
Definition STEPPER_COUNT : Z := 4.
Definition DIGITAL_INPUT_COUNT : Z := 4.
Definition digital_input_pins : list Z := [9; 8; 13; 12].
Definition DIGITAL_OUTPUT_COUNT : Z := 2.
Definition digital_output_pins : list Z := [14; 15].
Definition SERVO_COUNT : Z := 0.

(** Sizes of the message buffers declared in [main]. *)
Definition RX_BUFFER_SIZE : Z := 255.
Definition TX_BUFFER_SIZE : Z := 255.
Definition RX_MESSAGE_SIZE : Z := 254.
Definition TX_MESSAGE_SIZE : Z := 254.

(** ** [dump_configuration] *)

Definition dq : string := String (ascii_of_nat 34) EmptyString.

(** [%d] of a non-negative constant. *)
Definition fmt_d (z : Z) : string := NilEmpty.string_of_uint (N.to_uint (Z.to_N z)).

Definition configuration_text : string :=
  ("{" ++ dq ++ "firmware_version" ++ dq ++ ":" ++ dq ++ "1.0" ++ dq
   ++ "," ++ dq ++ "device_name" ++ dq ++ ":" ++ dq ++ DEVICE_NAME ++ dq
   ++ "," ++ dq ++ "device_address" ++ dq ++ ":" ++ fmt_d DEVICE_ADDRESS
   ++ "," ++ dq ++ "stepper_count" ++ dq ++ ":" ++ fmt_d STEPPER_COUNT
   ++ "," ++ dq ++ "digital_input_count" ++ dq ++ ":" ++ fmt_d DIGITAL_INPUT_COUNT
   ++ "," ++ dq ++ "digital_output_count" ++ dq ++ ":" ++ fmt_d DIGITAL_OUTPUT_COUNT
   ++ "," ++ dq ++ "servo_count" ++ dq ++ ":" ++ fmt_d SERVO_COUNT
   ++ "}")%string.

(** [snprintf(buf, buf_size, ...)]: at most [buf_size - 1] characters are
    stored, the return value is the length of the whole text. *)
Definition dump_configuration (buf_size : Z) : list Z * Z :=
  let text := ascii_bytes configuration_text in
  (firstn (Z.to_nat (buf_size - 1)) text, Z.of_nat (length text)).

(** ** Collaborators *)

(** *** MotionAxis ([Stepper]) *)

Inductive Mode : Set := STOPPED | MOVE_TO_TARGET | RUN_AT_SPEED | HOMING.

Record AxisState : Set := {
  position : Z;
  mode : Mode;
  target_distance : Z;
  current_rate : Z;
  target_rate : Z;
  acceleration : Z;
  min_speed : Z;
  max_speed : Z;
  phase_accumulator : Z;
  homing_sensor : Z;
  homing_polarity : bool
}.

Definition mode_is_stopped (a : AxisState) : bool :=
  match mode a with STOPPED => true | _ => false end.

Module Stepper.

(** Modelled from the spec: the class [Stepper] of [Stepper.h], which the
    firmware includes and whose text is not available; [initialize]
    resets to STOPPED, zero position, zero rate. *)
Definition initialize (a : AxisState) : AxisState :=
  {| position := 0; mode := STOPPED; target_distance := 0;
     current_rate := 0; target_rate := 0;
     acceleration := acceleration a;
     min_speed := min_speed a; max_speed := max_speed a;
     phase_accumulator := 0;
     homing_sensor := homing_sensor a;
     homing_polarity := homing_polarity a |}.

(** Modelled from the spec: [setAcceleration(a)] updates the bound. *)
Definition setAcceleration (acc : Z) (a : AxisState) : AxisState :=
  {| position := position a; mode := mode a;
     target_distance := target_distance a;
     current_rate := current_rate a; target_rate := target_rate a;
     acceleration := acc;
     min_speed := min_speed a; max_speed := max_speed a;
     phase_accumulator := phase_accumulator a;
     homing_sensor := homing_sensor a;
     homing_polarity := homing_polarity a |}.

(** Modelled from the spec: [setSpeedLimits(min, max)] updates the
    bounds, no validation. *)
Definition setSpeedLimits (lo hi : Z) (a : AxisState) : AxisState :=
  {| position := position a; mode := mode a;
     target_distance := target_distance a;
     current_rate := current_rate a; target_rate := target_rate a;
     acceleration := acceleration a;
     min_speed := lo; max_speed := hi;
     phase_accumulator := phase_accumulator a;
     homing_sensor := homing_sensor a;
     homing_polarity := homing_polarity a |}.

(** Modelled from the spec: [moveSteps(distance)] fails and leaves the
    state unchanged unless the axis is STOPPED; otherwise it arms
    MOVE_TO_TARGET with [target_rate = sign(distance) * max_speed]. *)
Definition moveSteps (distance : Z) (a : AxisState) : bool * AxisState :=
  if mode_is_stopped a then
    (true,
     {| position := position a; mode := MOVE_TO_TARGET;
        target_distance := distance;
        current_rate := current_rate a;
        target_rate := Z.sgn distance * max_speed a;
        acceleration := acceleration a;
        min_speed := min_speed a; max_speed := max_speed a;
        phase_accumulator := phase_accumulator a;
        homing_sensor := homing_sensor a;
        homing_polarity := homing_polarity a |})
  else (false, a).

(** Modelled from the spec: [moveAtSpeed(speed)] always succeeds, sets
    [mode = RUN_AT_SPEED] and [target_rate = clamp(speed, -max_speed,
    max_speed)]; with speed 0 the mode settles to STOPPED only later,
    once [current_rate] has reached 0. *)
Definition moveAtSpeed (speed : Z) (a : AxisState) : bool * AxisState :=
  (true,
   {| position := position a; mode := RUN_AT_SPEED;
      target_distance := target_distance a;
      current_rate := current_rate a;
      target_rate := Z.max (- max_speed a) (Z.min speed (max_speed a));
      acceleration := acceleration a;
      min_speed := min_speed a; max_speed := max_speed a;
      phase_accumulator := phase_accumulator a;
      homing_sensor := homing_sensor a;
      homing_polarity := homing_polarity a |}).

(** Modelled from the spec: [isStopped()] is true iff
    [mode == STOPPED] and [current_rate == 0]. *)
Definition isStopped (a : AxisState) : bool :=
  mode_is_stopped a && (current_rate a =? 0).

(** Modelled from the spec: [getPosition()]. *)
Definition getPosition (a : AxisState) : Z := position a.

(** Modelled from the spec: [setPosition(pos)] fails unless the axis is
    STOPPED; otherwise it overwrites position and phase accumulator. *)
Definition setPosition (pos : Z) (a : AxisState) : bool * AxisState :=
  if mode_is_stopped a then
    (true,
     {| position := pos; mode := mode a;
        target_distance := target_distance a;
        current_rate := current_rate a; target_rate := target_rate a;
        acceleration := acceleration a;
        min_speed := min_speed a; max_speed := max_speed a;
        phase_accumulator := 0;
        homing_sensor := homing_sensor a;
        homing_polarity := homing_polarity a |})
  else (false, a).

(** Modelled from the spec: [home(speed, sensor_line, polarity)] fails
    unless the axis is STOPPED; otherwise [mode = HOMING],
    [target_rate = sign(speed) * |speed|], sensor and polarity are
    recorded. *)
Definition home (speed pin : Z) (polarity : bool) (a : AxisState)
  : bool * AxisState :=
  if mode_is_stopped a then
    (true,
     {| position := position a; mode := HOMING;
        target_distance := target_distance a;
        current_rate := current_rate a;
        target_rate := Z.sgn speed * Z.abs speed;
        acceleration := acceleration a;
        min_speed := min_speed a; max_speed := max_speed a;
        phase_accumulator := phase_accumulator a;
        homing_sensor := pin;
        homing_polarity := polarity |})
  else (false, a).

End Stepper.

(** *** DriverService ([TMC2209]) *)

(** Modelled from the spec: the enumeration of [TMC2209.h], a header
    whose text is not available; the six settings the microstep switch
    names. *)
Inductive MicrostepSetting : Set :=
| MICROSTEP_FULL | MICROSTEP_2 | MICROSTEP_4
| MICROSTEP_8 | MICROSTEP_16 | MICROSTEP_32.

(** *** Everything the command context asks of its collaborators *)

Inductive Event : Set :=
| StepperMoveSteps (id distance : Z)
| StepperMoveAtSpeed (id speed : Z)
| StepperSetSpeedLimits (id lo hi : Z)
| StepperSetAcceleration (id acc : Z)
| StepperIsStopped (id : Z)
| StepperGetPosition (id : Z)
| StepperSetPosition (id pos : Z)
| StepperHome (id speed pin : Z) (polarity : bool)
| TmcEnableDriver (id : Z) (enabled : bool)
| TmcSetMicrosteps (id : Z) (m : MicrostepSetting)
| TmcSetCurrent (id run hold delay : Z)
| TmcReadRegister (id addr : Z)
| TmcWriteRegister (id addr value : Z)
| GpioGet (pin : Z)
| GpioPut (pin : Z) (level : bool)
| InputPinTableRead (index : Z).

(** The globals the command context mutates. *)
Record Device : Type := {
  steppers : list AxisState;
  gpio_out : gmap Z bool;
  trace : list Event
}.

(** What the command context observes and cannot decide: input levels,
    the register contents the driver bus returns ([None]: the read
    failed), and the words that lie next to [digital_input_pins] in
    memory, which an index outside the table reads. *)
Record World : Type := {
  gpio_get : Z -> bool;
  tmc_readRegister : Z -> Z -> option Z;
  beside_input_pins : Z -> Z
}.

Definition axis_at_rest : AxisState :=
  {| position := 0; mode := STOPPED; target_distance := 0;
     current_rate := 0; target_rate := 0; acceleration := 0;
     min_speed := 0; max_speed := 0; phase_accumulator := 0;
     homing_sensor := 0; homing_polarity := false |}.

Definition log (e : Event) (d : Device) : Device :=
  {| steppers := steppers d; gpio_out := gpio_out d;
     trace := trace d ++ [e] |}.

(** [steppers[id]]; every use is behind [channel < STEPPER_COUNT]. *)
Definition stepper (d : Device) (id : Z) : AxisState :=
  default axis_at_rest (steppers d !! Z.to_nat id).

Definition set_stepper (id : Z) (a : AxisState) (d : Device) : Device :=
  {| steppers := <[Z.to_nat id := a]> (steppers d);
     gpio_out := gpio_out d; trace := trace d |}.

(** [steppers[id].method(...)] for a method that reports a [bool]. *)
Definition stepper_call (id : Z) (e : Event)
    (method : AxisState -> bool * AxisState) (d : Device) : bool * Device :=
  let (res, a) := method (stepper d id) in
  (res, set_stepper id a (log e d)).

(** [steppers[id].method(...)] for a [void] method. *)
Definition stepper_update (id : Z) (e : Event)
    (method : AxisState -> AxisState) (d : Device) : Device :=
  set_stepper id (method (stepper d id)) (log e d).

(** [gpio_put(pin, level)]. *)
Definition gpio_put (pin : Z) (level : bool) (d : Device) : Device :=
  {| steppers := steppers d;
     gpio_out := <[pin := level]> (gpio_out d);
     trace := trace d ++ [GpioPut pin level] |}.

(** [digital_input_pins[i]] for an [int] index: inside the table the
    entry, outside it whatever the neighbouring memory holds. *)
Definition input_pin_entry (w : World) (i : Z) : Z :=
  if (0 <=? i) && (i <? Z.of_nat (length digital_input_pins))
  then nth (Z.to_nat i) digital_input_pins 0
  else beside_input_pins w i.

(** ** Messages *)

(** [struct Message] as the response is filled in; [payload] holds the
    bytes the handler stores behind the header. *)
Record Message : Set := {
  dev_address : Z;
  command : Z;
  channel : Z;
  payload_length : Z;
  payload : list Z
}.

(** Fields of the request, read in place from [rx_message]. *)
Definition msg_dev_address (rx : list Z) : Z := byte_at rx 0.
Definition msg_command (rx : list Z) : Z := byte_at rx 1.
Definition msg_channel (rx : list Z) : Z := byte_at rx 2.
Definition msg_payload_length (rx : list Z) : Z := byte_at rx 3.
Definition msg_payload_byte (rx : list Z) (i : Z) : Z := byte_at rx (4 + i).
Definition msg_payload_u32 (rx : list Z) (off : Z) : Z := read_u32 rx (4 + off).
Definition msg_payload_s32 (rx : list Z) (off : Z) : Z :=
  s32 (read_u32 rx (4 + off)).

(** [memcpy(resp->payload, msg->payload, n)]. *)
Definition msg_payload_copy (rx : list Z) (n : Z) : list Z :=
  List.map (fun i => msg_payload_byte rx (Z.of_nat i)) (List.seq 0 (Z.to_nat n)).

(** How control leaves the command [switch]. *)
Inductive Flow : Type :=
| Break (resp : Message) (d : Device)
    (* falls through to the code that sends [resp] *)
| Continue (resp : Message) (d : Device)
    (* [continue]: back to the top of the main loop, [resp] stays unsent *)
| Overrun (d : Device).
    (* the handler would read or write past a message buffer *)

Definition bool_word (b : bool) : Z := if b then 1 else 0.

Definition microstep_setting (microsteps : Z) : option MicrostepSetting :=
  if microsteps =? 1 then Some MICROSTEP_FULL
  else if microsteps =? 2 then Some MICROSTEP_2
  else if microsteps =? 4 then Some MICROSTEP_4
  else if microsteps =? 8 then Some MICROSTEP_8
  else if microsteps =? 16 then Some MICROSTEP_16
  else if microsteps =? 32 then Some MICROSTEP_32
  else None.

(** [for (int i = 0; i < STEPPER_COUNT; i++) steppers[i].moveAtSpeed(0);] *)
Definition stop_all_steppers (d : Device) : Device :=
  fold_left
    (fun d i => snd (stepper_call (Z.of_nat i) (StepperMoveAtSpeed (Z.of_nat i) 0)
                       (Stepper.moveAtSpeed 0) d))
    (List.seq 0 (Z.to_nat STEPPER_COUNT)) d.

(** [for (int i = 0; i < DIGITAL_OUTPUT_COUNT; i++)
      gpio_put(digital_output_pins[i], 0);] *)
Definition clear_digital_outputs (d : Device) : Device :=
  fold_left
    (fun d i => gpio_put (nth i digital_output_pins 0) false d)
    (List.seq 0 (Z.to_nat DIGITAL_OUTPUT_COUNT)) d.

(** ** CommandDispatcher: the [switch (msg->command)] of [main] *)

Section CommandSwitch.

Variable w : World.
Variable d : Device.
Variable rx : list Z.

Local Abbreviation cmd := (msg_command rx).
Local Abbreviation ch := (msg_channel rx).
Local Abbreviation plen := (msg_payload_length rx).

(** The response with [dev_address] and [channel] copied from the
    request, as set before the [switch]. *)
Definition reply (c n : Z) (p : list Z) : Message :=
  {| dev_address := msg_dev_address rx; command := c;
     channel := ch; payload_length := n; payload := p |}.

(** [resp->command = msg->command | 0x80; resp->payload_length = 0;] *)
Definition exception_reply : Message := reply (u8 (Z.lor cmd 0x80)) 0 [].

Definition bad_arguments : Flow := Break exception_reply d.

(** [msg->payload_length == len && msg->channel < count] *)
Definition args_ok (len count : Z) : bool := (plen =? len) && (ch <? count).

Definition case_INIT : Flow :=
  let d1 := stop_all_steppers d in
  let d2 := clear_digital_outputs d1 in
  let (text, n_bytes) := dump_configuration 246 in
  Break (reply (code CMD_INIT) (u8 n_bytes) text) d2.

Definition case_PING : Flow :=
  if (4 + plen <=? RX_MESSAGE_SIZE) && (4 + plen <=? TX_MESSAGE_SIZE)
  then Break (reply (code CMD_PING) plen (msg_payload_copy rx plen)) d
  else Overrun d.

Definition case_STEPPER_MOVE_STEPS : Flow :=
  if args_ok 4 STEPPER_COUNT then
    let stepper_id := ch in
    let distance := msg_payload_s32 rx 0 in
    let (res, d') :=
      stepper_call stepper_id (StepperMoveSteps stepper_id distance)
        (Stepper.moveSteps distance) d in
    Break (reply cmd 4 (bytes_of_u32 (bool_word res))) d'
  else bad_arguments.

Definition case_STEPPER_MOVE_AT_SPEED : Flow :=
  if args_ok 4 STEPPER_COUNT then
    let stepper_id := ch in
    let speed := msg_payload_s32 rx 0 in
    let (res, d') :=
      stepper_call stepper_id (StepperMoveAtSpeed stepper_id speed)
        (Stepper.moveAtSpeed speed) d in
    Break (reply cmd 4 (bytes_of_u32 (bool_word res))) d'
  else bad_arguments.

Definition case_STEPPER_SET_SPEED_LIMITS : Flow :=
  if args_ok 8 STEPPER_COUNT then
    let stepper_id := ch in
    let min_speed := msg_payload_u32 rx 0 in
    let max_speed := msg_payload_u32 rx 4 in
    let d' :=
      stepper_update stepper_id
        (StepperSetSpeedLimits stepper_id min_speed max_speed)
        (Stepper.setSpeedLimits min_speed max_speed) d in
    Break (reply cmd 0 []) d'
  else bad_arguments.

Definition case_STEPPER_SET_ACCELERATION : Flow :=
  if args_ok 4 STEPPER_COUNT then
    let stepper_id := ch in
    let acceleration := msg_payload_u32 rx 0 in
    let d' :=
      stepper_update stepper_id
        (StepperSetAcceleration stepper_id acceleration)
        (Stepper.setAcceleration acceleration) d in
    Break (reply cmd 0 []) d'
  else bad_arguments.

Definition case_STEPPER_IS_STOPPED : Flow :=
  if args_ok 0 STEPPER_COUNT then
    let stepper_id := ch in
    let res := Stepper.isStopped (stepper d stepper_id) in
    Break (reply cmd 4 (bytes_of_u32 (bool_word res)))
          (log (StepperIsStopped stepper_id) d)
  else bad_arguments.

Definition case_STEPPER_GET_POSITION : Flow :=
  if args_ok 0 STEPPER_COUNT then
    let stepper_id := ch in
    let position := Stepper.getPosition (stepper d stepper_id) in
    Break (reply cmd 4 (bytes_of_u32 (u32 position)))
          (log (StepperGetPosition stepper_id) d)
  else bad_arguments.

Definition case_STEPPER_SET_POSITION : Flow :=
  if args_ok 4 STEPPER_COUNT then
    let stepper_id := ch in
    let position := msg_payload_s32 rx 0 in
    let (_, d') :=
      stepper_call stepper_id (StepperSetPosition stepper_id position)
        (Stepper.setPosition position) d in
    Break (reply cmd 0 []) d'
  else bad_arguments.

Definition case_STEPPER_HOME : Flow :=
  if args_ok 12 STEPPER_COUNT then
    let stepper_id := ch in
    let home_speed := msg_payload_s32 rx 0 in
    let home_pin := msg_payload_s32 rx 4 in
    let home_pin_polarity := negb (msg_payload_byte rx 8 =? 0) in
    if home_pin >=? DIGITAL_INPUT_COUNT then bad_arguments
    else
      let d1 := log (InputPinTableRead home_pin) d in
      let home_pin := input_pin_entry w home_pin in
      let (_, d2) :=
        stepper_call stepper_id
          (StepperHome stepper_id home_speed home_pin home_pin_polarity)
          (Stepper.home home_speed home_pin home_pin_polarity) d1 in
      Break (reply cmd 0 []) d2
  else bad_arguments.

Definition case_STEPPER_DRV_SET_ENABLED : Flow :=
  if args_ok 4 STEPPER_COUNT then
    let stepper_id := ch in
    let enabled := negb (msg_payload_u32 rx 0 =? 0) in
    Break (reply cmd 0 []) (log (TmcEnableDriver stepper_id enabled) d)
  else bad_arguments.

Definition case_STEPPER_DRV_SET_MICROSTEPS : Flow :=
  if args_ok 4 STEPPER_COUNT then
    let stepper_id := ch in
    let microsteps := msg_payload_u32 rx 0 in
    match microstep_setting microsteps with
    | Some m => Break (reply cmd 0 []) (log (TmcSetMicrosteps stepper_id m) d)
    | None => Continue exception_reply d
    end
  else bad_arguments.

Definition case_STEPPER_DRV_SET_CURRENT : Flow :=
  if args_ok 12 STEPPER_COUNT then
    let stepper_id := ch in
    let run_current := msg_payload_u32 rx 0 in
    let hold_current := msg_payload_u32 rx 4 in
    let hold_delay := msg_payload_u32 rx 8 in
    Break (reply cmd 0 [])
          (log (TmcSetCurrent stepper_id run_current hold_current hold_delay) d)
  else bad_arguments.

Definition case_STEPPER_DRV_READ_REGISTER : Flow :=
  if args_ok 4 STEPPER_COUNT then
    let stepper_id := ch in
    let reg_addr := msg_payload_u32 rx 0 in
    let d' := log (TmcReadRegister stepper_id reg_addr) d in
    match tmc_readRegister w stepper_id reg_addr with
    | None => Break (reply (u8 (Z.lor cmd 0x80)) 0 []) d'
    | Some reg_value => Break (reply cmd 4 (bytes_of_u32 (u32 reg_value))) d'
    end
  else bad_arguments.

Definition case_STEPPER_DRV_WRITE_REGISTER : Flow :=
  if args_ok 8 STEPPER_COUNT then
    let stepper_id := ch in
    let reg_addr := msg_payload_u32 rx 0 in
    let reg_value := msg_payload_u32 rx 4 in
    Break (reply cmd 0 [])
          (log (TmcWriteRegister stepper_id reg_addr reg_value) d)
  else bad_arguments.

Definition case_DIGITAL_READ : Flow :=
  if args_ok 0 DIGITAL_INPUT_COUNT then
    let input_id := ch in
    let pin := nth (Z.to_nat input_id) digital_input_pins 0 in
    let value := gpio_get w pin in
    Break (reply cmd 4 (bytes_of_u32 (bool_word value))) (log (GpioGet pin) d)
  else bad_arguments.

Definition case_DIGITAL_WRITE : Flow :=
  if args_ok 4 DIGITAL_OUTPUT_COUNT then
    let output_id := ch in
    let value := negb (msg_payload_u32 rx 0 =? 0) in
    let pin := nth (Z.to_nat output_id) digital_output_pins 0 in
    Break (reply cmd 0 []) (gpio_put pin value d)
  else bad_arguments.

Definition case_default : Flow :=
  Break (reply (code CMD_BAD_COMMAND) 0 []) d.

Definition dispatch : Flow :=
  match command_of_byte cmd with
  | Some CMD_INIT => case_INIT
  | Some CMD_PING => case_PING
  | Some CMD_STEPPER_MOVE_STEPS => case_STEPPER_MOVE_STEPS
  | Some CMD_STEPPER_MOVE_AT_SPEED => case_STEPPER_MOVE_AT_SPEED
  | Some CMD_STEPPER_SET_SPEED_LIMITS => case_STEPPER_SET_SPEED_LIMITS
  | Some CMD_STEPPER_SET_ACCELERATION => case_STEPPER_SET_ACCELERATION
  | Some CMD_STEPPER_IS_STOPPED => case_STEPPER_IS_STOPPED
  | Some CMD_STEPPER_GET_POSITION => case_STEPPER_GET_POSITION
  | Some CMD_STEPPER_SET_POSITION => case_STEPPER_SET_POSITION
  | Some CMD_STEPPER_HOME => case_STEPPER_HOME
  | Some CMD_STEPPER_DRV_SET_ENABLED => case_STEPPER_DRV_SET_ENABLED
  | Some CMD_STEPPER_DRV_SET_MICROSTEPS => case_STEPPER_DRV_SET_MICROSTEPS
  | Some CMD_STEPPER_DRV_SET_CURRENT => case_STEPPER_DRV_SET_CURRENT
  | Some CMD_STEPPER_DRV_READ_REGISTER => case_STEPPER_DRV_READ_REGISTER
  | Some CMD_STEPPER_DRV_WRITE_REGISTER => case_STEPPER_DRV_WRITE_REGISTER
  | Some CMD_DIGITAL_READ => case_DIGITAL_READ
  | Some CMD_DIGITAL_WRITE => case_DIGITAL_WRITE
  | Some CMD_SERVO_SET_ENABLED | Some CMD_SERVO_MOVE_TO
  | Some CMD_SERVO_SET_SPEED_LIMITS | Some CMD_SERVO_SET_ACCELERATION
  | Some CMD_BAD_COMMAND | None => case_default
  end.

End CommandSwitch.

(** ** Transport loop: the body of [main] *)

(** [n] bytes of a buffer starting at [off], as a [uint8_t*] walks them. *)
Definition buffer_bytes (buf : list Z) (off n : Z) : list Z :=
  List.map (fun i => byte_at buf (off + Z.of_nat i)) (List.seq 0 (Z.to_nat n)).

(** The first [4 + payload_length] bytes of [tx_message] once a handler
    has filled in the response. *)
Definition message_bytes (m : Message) : list Z :=
  [u8 (dev_address m); u8 (command m); u8 (channel m); u8 (payload_length m)]
  ++ payload m.

(** The locals of [main] that live across iterations.  [rx_buffer] holds
    the bytes received so far, so [rx_buffer_pos] is its length;
    [rx_message] is the whole 254-byte array, stale bytes included. *)
Record MainState : Type := {
  rx_buffer : list Z;
  msg_len : Z;
  rx_message : list Z;
  device : Device
}.

Definition rx_buffer_pos (st : MainState) : Z := Z.of_nat (length (rx_buffer st)).

Section MainLoop.

(** The frame codec of [cobs.h], taken as [main] calls it, whatever it
    computes: [COBS_decode src dst] gives the return value and the
    contents of [dst] afterwards, [COBS_encode src] the return value and
    the contents of [tx_buffer]. *)
Variable COBS_decode : list Z -> list Z -> Z * list Z.
Variable COBS_encode : list Z -> Z * list Z.

Variable w : World.

(** The branch [if (c == 0)] of the receive loop.  [None]: the checksum
    would be read from outside [rx_message]. *)
Definition end_of_message (st : MainState) : option MainState :=
  if rx_buffer_pos st <? 8 then
    (* Empty message, ignore; rx_buffer_pos keeps its value *)
    Some {| rx_buffer := rx_buffer st; msg_len := 0;
            rx_message := rx_message st; device := device st |}
  else
    let (res, rx_message') := COBS_decode (rx_buffer st) (rx_message st) in
    let dropped :=
      {| rx_buffer := []; msg_len := -1;
         rx_message := rx_message'; device := device st |} in
    if res <? 0 then Some dropped
    else if negb (byte_at rx_message' 0 =? DEVICE_ADDRESS) then Some dropped
    else
      let msg_len := res in
      if (msg_len <? 4) || (RX_MESSAGE_SIZE <? msg_len) then None
      else
        let incoming_crc := read_u32 rx_message' (msg_len - 4) in
        let calc_crc := crc32 (buffer_bytes rx_message' 0 (msg_len - 4)) in
        if negb (calc_crc =? incoming_crc) then Some dropped
        else
          Some {| rx_buffer := []; msg_len := msg_len - 4;
                  rx_message := rx_message'; device := device st |}.

(** The inner [while (true)]: bytes are taken from [pending] until it is
    empty ([PICO_ERROR_TIMEOUT]), a message ends or the buffer is full.
    Returns the state at the [break] and the bytes not yet read. *)
Fixpoint receive (st : MainState) (pending : list Z)
  : option (MainState * list Z) :=
  match pending with
  | [] => Some (st, [])
  | c :: rest =>
      if c =? 0 then
        st' ← end_of_message st; Some (st', rest)
      else if rx_buffer_pos st <? RX_BUFFER_SIZE then
        receive {| rx_buffer := rx_buffer st ++ [u8 c]; msg_len := msg_len st;
                   rx_message := rx_message st; device := device st |} rest
      else
        Some ({| rx_buffer := []; msg_len := -1;
                 rx_message := rx_message st; device := device st |}, rest)
  end.

(** The code after the [switch]: checksum, stuffing, transmission.
    Returns the new [msg_len] and the buffers handed to
    [stdio_put_string]; [None] when the checksum would be stored past
    the end of [tx_message]. *)
Definition send_response (st : MainState) (resp : Message)
  : option (Z * list (list Z)) :=
  let resp_len := 4 + payload_length resp in
  if TX_MESSAGE_SIZE <? resp_len + 4 then None
  else
    let crc := crc32 (buffer_bytes (message_bytes resp) 0 resp_len) in
    let tx_message :=
      buffer_bytes (message_bytes resp) 0 resp_len ++ bytes_of_u32 crc in
    let (enc_len, tx_buffer) := COBS_encode tx_message in
    if enc_len <? 0 then Some (msg_len st, [])
    else Some (0, [firstn (Z.to_nat enc_len) tx_buffer]).

(** [if (msg_len > 0) { ... }]. *)
Definition process (st : MainState) : option (MainState * list (list Z)) :=
  if 0 <? msg_len st then
    match dispatch w (device st) (rx_message st) with
    | Break resp d' =>
        '(len, sent) ← send_response st resp;
        Some ({| rx_buffer := rx_buffer st; msg_len := len;
                 rx_message := rx_message st; device := d' |}, sent)
    | Continue _ d' =>
        Some ({| rx_buffer := rx_buffer st; msg_len := msg_len st;
                 rx_message := rx_message st; device := d' |}, [])
    | Overrun _ => None
    end
  else Some (st, []).

(** One turn of the outer [while (true)]. *)
Definition main_iteration (st : MainState) (pending : list Z)
  : option (MainState * list Z * list (list Z)) :=
  '(st1, rest) ← receive st pending;
  '(st2, sent) ← process st1;
  Some (st2, rest, sent).

(** [n] turns of the outer loop on the bytes already waiting. *)
Fixpoint main_loop (n : nat) (st : MainState) (pending : list Z)
  : option (MainState * list Z * list (list Z)) :=
  match n with
  | O => Some (st, pending, [])
  | S n' =>
      '(st1, rest, sent) ← main_iteration st pending;
      '(st2, rest', sent') ← main_loop n' st1 rest;
      Some (st2, rest', sent ++ sent')
  end.

End MainLoop.

(** ** FrameCodec *)

Module Cobs.

(** Modelled from the spec: the codec of [cobs.h], whose text is not
    available.  Zero-elimination byte stuffing: every run between zero
    bytes is prefixed with its length plus one; a run of 254 bytes
    without a zero is prefixed with [0xFF] and stands for no zero.
    [emit] closes the block collected so far. *)
Definition emit (block : list Z) : list Z :=
  (Z.of_nat (length block) + 1) :: block.

(** Modelled from the spec: the encoder's walk over the input, [block]
    being the run collected since the last length prefix. *)
Fixpoint encode_from (block : list Z) (data : list Z) : list Z :=
  match data with
  | [] => emit block
  | b :: rest =>
      if u8 b =? 0 then emit block ++ encode_from [] rest
      else if (length block + 1 =? 254)%nat
      then emit (block ++ [u8 b]) ++ encode_from [] rest
      else encode_from (block ++ [u8 b]) rest
  end.

(** Modelled from the spec: [encode(payload_bytes) -> stuffed_bytes]. *)
Definition encode (data : list Z) : list Z := encode_from [] data.

(** Modelled from the spec: [decode(stuffed_bytes) -> payload_bytes |
    FramingError]; it fails on a zero byte and on a length prefix that
    points past the end of the input.  [fuel] bounds the number of
    blocks. *)
Fixpoint decode_blocks (fuel : nat) (src : list Z) : option (list Z) :=
  match src with
  | [] => Some []
  | c :: rest =>
      match fuel with
      | O => None
      | S fuel' =>
          let run := Z.to_nat (u8 c - 1) in
          if u8 c =? 0 then None
          else if (length rest <? run)%nat then None
          else
            let block := List.map u8 (firstn run rest) in
            let rest' := skipn run rest in
            if existsb (Z.eqb 0) block then None
            else
              tail ← decode_blocks fuel' rest';
              Some (block
                    ++ (if (u8 c =? 255) || (length rest' =? 0)%nat
                        then [] else [0])
                    ++ tail)
      end
  end.

Definition decode (src : list Z) : option (list Z) :=
  decode_blocks (length src) src.

(** Modelled from the spec: the C entry points around [decode] and
    [encode]: a negative return value for a framing error or a
    destination that is too small, otherwise the number of bytes stored
    at the start of the destination. *)
Definition COBS_decode (src dst : list Z) : Z * list Z :=
  match decode src with
  | Some out =>
      if (Z.of_nat (length out) <=? RX_MESSAGE_SIZE)
      then (Z.of_nat (length out), out ++ skipn (length out) dst)
      else (-1, dst)
  | None => (-1, dst)
  end.

Definition COBS_encode (src : list Z) : Z * list Z :=
  let out := encode src in
  if Z.of_nat (length out) <=? TX_BUFFER_SIZE
  then (Z.of_nat (length out), out)
  else (-1, []).

End Cobs.

(** ** Start-up: [initialize_hardware] *)

Definition boot_axis : AxisState :=
  Stepper.setSpeedLimits 16 4000
    (Stepper.setAcceleration 20000 (Stepper.initialize axis_at_rest)).

(** The steppers as [initialize_hardware] leaves them and the digital
    outputs driven low. *)
Definition boot_device : Device :=
  clear_digital_outputs
    {| steppers := repeat boot_axis (Z.to_nat STEPPER_COUNT);
       gpio_out := ∅; trace := [] |}.

Definition boot_state : MainState :=
  {| rx_buffer := []; msg_len := 0;
     rx_message := repeat 0 (Z.to_nat RX_MESSAGE_SIZE);
     device := boot_device |}.

(** A world with all inputs low, every driver register reading 0 and
    zeros next to the pin table. *)
Definition quiet_world : World :=
  {| gpio_get := fun _ => false;
     tmc_readRegister := fun _ _ => Some 0;
     beside_input_pins := fun _ => 0 |}.

(** A request as the host builds it: header, payload, checksum, stuffing
    and the terminator. *)
Definition request_bytes (addr cmd chan : Z) (data : list Z) : list Z :=
  [addr; cmd; chan; Z.of_nat (length data)] ++ data.

Definition with_checksum (body : list Z) : list Z :=
  body ++ bytes_of_u32 (crc32 body).

Definition on_wire (message : list Z) : list Z := Cobs.encode message ++ [0].

(** ** The command table and the observations the properties speak of *)

(** The command table of the specification: the collection a command's
    [channel] indexes, and the fixed length of its input payload
    ([None]: no channel, respectively any length). *)
Inductive ChannelTarget : Set := AxisTarget | InputLineTarget | OutputLineTarget.

Definition table_channel_target (c : CommandCodes) : option ChannelTarget :=
  match c with
  | CMD_STEPPER_MOVE_STEPS | CMD_STEPPER_MOVE_AT_SPEED
  | CMD_STEPPER_SET_SPEED_LIMITS | CMD_STEPPER_SET_ACCELERATION
  | CMD_STEPPER_IS_STOPPED | CMD_STEPPER_GET_POSITION
  | CMD_STEPPER_SET_POSITION | CMD_STEPPER_HOME
  | CMD_STEPPER_DRV_SET_ENABLED | CMD_STEPPER_DRV_SET_MICROSTEPS
  | CMD_STEPPER_DRV_SET_CURRENT | CMD_STEPPER_DRV_READ_REGISTER
  | CMD_STEPPER_DRV_WRITE_REGISTER => Some AxisTarget
  | CMD_DIGITAL_READ => Some InputLineTarget
  | CMD_DIGITAL_WRITE => Some OutputLineTarget
  | _ => None
  end.


(** The argument-error response to a request: command code with the
    exception bit, no payload, address and channel echoed. *)
Definition argument_error (rx : list Z) (c : CommandCodes) : Message :=
  {| dev_address := msg_dev_address rx;
     command := Z.lor (code c) 0x80;
     channel := msg_channel rx;
     payload_length := 0;
     payload := [] |}.

(** Two receive messages that hold the same bytes at offsets below [n]. *)
Definition same_prefix (rx1 rx2 : list Z) (n : Z) : Prop :=
  forall i, 0 <= i < n -> byte_at rx1 i = byte_at rx2 i.

(** What a turn of [process] shows to the outside: the device afterwards
    and the frames sent. *)
Definition outcome (r : option (MainState * list (list Z)))
  : option (Device * list (list Z)) :=
  match r with
  | Some (st, sent) => Some (device st, sent)
  | None => None
  end.

(** ** Requests used as examples *)


(** DRV_SET_MICROSTEPS on axis 0 with the value 3, as it arrives on the
    wire, and the state of [main] once the message has been verified. *)
Definition bad_microsteps_wire : list Z :=
  on_wire (with_checksum (request_bytes 0 0x21 0 [3; 0; 0; 0])).

Definition bad_microsteps_received : MainState :=
  {| rx_buffer := []; msg_len := 8;
     rx_message := with_checksum (request_bytes 0 0x21 0 [3; 0; 0; 0])
                   ++ repeat 0 242;
     device := boot_device |}.

(** PING with the payload [41 42], once as the host should frame it and
    once with three more bytes before the checksum. *)
Definition ping_exact_wire : list Z :=
  on_wire (with_checksum (request_bytes 0 0x02 0 [0x41; 0x42])).

Definition ping_padded_wire : list Z :=
  on_wire (with_checksum (request_bytes 0 0x02 0 [0x41; 0x42] ++ [9; 9; 9])).

Definition ping_exact_received : MainState :=
  {| rx_buffer := []; msg_len := 6;
     rx_message := with_checksum (request_bytes 0 0x02 0 [0x41; 0x42])
                   ++ repeat 0 244;
     device := boot_device |}.

Definition ping_padded_received : MainState :=
  {| rx_buffer := []; msg_len := 9;
     rx_message :=
       with_checksum (request_bytes 0 0x02 0 [0x41; 0x42] ++ [9; 9; 9])
       ++ repeat 0 241;
     device := boot_device |}.

(** ** Further notions for the properties of the whole switch *)

(** The enumerators that have a [case] label in the [switch]. *)
Definition case_labels : list CommandCodes :=
  [ CMD_INIT; CMD_PING; CMD_STEPPER_MOVE_STEPS; CMD_STEPPER_MOVE_AT_SPEED;
    CMD_STEPPER_SET_SPEED_LIMITS; CMD_STEPPER_SET_ACCELERATION;
    CMD_STEPPER_IS_STOPPED; CMD_STEPPER_GET_POSITION;
    CMD_STEPPER_SET_POSITION; CMD_STEPPER_HOME;
    CMD_STEPPER_DRV_SET_ENABLED; CMD_STEPPER_DRV_SET_MICROSTEPS;
    CMD_STEPPER_DRV_SET_CURRENT; CMD_STEPPER_DRV_READ_REGISTER;
    CMD_STEPPER_DRV_WRITE_REGISTER; CMD_DIGITAL_READ; CMD_DIGITAL_WRITE ].

(** The device as a handler leaves it, however control leaves the
    [switch]. *)
Definition flow_device (f : Flow) : Device :=
  match f with
  | Break _ d | Continue _ d | Overrun d => d
  end.

(** Bit 7 of the response's command byte. *)
Definition exception_bit (m : Message) : bool := Z.testbit (command m) 7.

(** A collaborator call that stays inside the board's tables: an axis or
    driver index below [STEPPER_COUNT], a configured input pin for
    [gpio_get], a configured output pin for [gpio_put]; for a read of the
    pin table only the upper bound. *)
Definition axis_in_range (id : Z) : Prop := 0 <= id < STEPPER_COUNT.

Definition event_in_bounds (e : Event) : Prop :=
  match e with
  | StepperMoveSteps id _ | StepperMoveAtSpeed id _
  | StepperSetSpeedLimits id _ _ | StepperSetAcceleration id _
  | StepperIsStopped id | StepperGetPosition id
  | StepperSetPosition id _ | StepperHome id _ _ _
  | TmcEnableDriver id _ | TmcSetMicrosteps id _
  | TmcSetCurrent id _ _ _ | TmcReadRegister id _
  | TmcWriteRegister id _ _ => axis_in_range id
  | GpioGet pin => List.In pin digital_input_pins
  | GpioPut pin _ => List.In pin digital_output_pins
  | InputPinTableRead index => index < DIGITAL_INPUT_COUNT
  end.

(** The contents of [tx_message] handed to [COBS_encode]: header and
    payload followed by the four bytes of their checksum. *)
Definition tx_message_of (resp : Message) : list Z :=
  let resp_len := 4 + payload_length resp in
  buffer_bytes (message_bytes resp) 0 resp_len
  ++ bytes_of_u32 (crc32 (buffer_bytes (message_bytes resp) 0 resp_len)).

(** * Properties *)

(** ** The model runs *)

Example crc32_check_vector_runs : crc32 (ascii_bytes "123456789") = 0xCBF43926.
Proof. vm_compute. reflexivity. Qed.

Example configuration_length : snd (dump_configuration 246) = 154.
Proof. vm_compute. reflexivity. Qed.

Example cobs_encode_runs : Cobs.encode [0; 0x14; 0; 5] = [1; 2; 0x14; 2; 5].
Proof. reflexivity. Qed.

Example cobs_decode_runs : Cobs.decode [1; 2; 0x14; 2; 5] = Some [0; 0x14; 0; 5].
Proof. reflexivity. Qed.

(** ** Integrity *)

Section Crc32Facts.

Local Abbreviation fits32 x := (0 <= x < 2 ^ 32).

Lemma high_bits_clear (x i : Z) : fits32 x -> 32 <= i -> Z.testbit x i = false.
Proof.
  intros Hx Hi. rewrite <- (Z.mod_small x (2 ^ 32)) by lia.
  apply Z.mod_pow2_bits_high. lia.
Qed.

Lemma fits32_of_bits (x : Z) :
  (forall i, 32 <= i -> Z.testbit x i = false) -> 0 <= x -> fits32 x.
Proof.
  intros Hbits Hx.
  assert (x mod 2 ^ 32 = x) as <-.
  { apply Z.bits_inj'. intros i Hi.
    destruct (Z_lt_le_dec i 32).
    - apply Z.mod_pow2_bits_low. lia.
    - rewrite Z.mod_pow2_bits_high by lia. symmetry. apply Hbits. lia. }
  apply Z.mod_pos_bound. lia.
Qed.

Lemma lxor_fits32 (a b : Z) : fits32 a -> fits32 b -> fits32 (Z.lxor a b).
Proof.
  intros Ha Hb. apply fits32_of_bits.
  - intros i Hi. rewrite Z.lxor_spec, !high_bits_clear by assumption. reflexivity.
  - apply Z.lxor_nonneg. lia.
Qed.

Lemma crc32_bit_spec (r : Z) : crc32_bit r = crc32_spec_step r.
Proof.
  unfold crc32_bit, crc32_spec_step, CRC_POLY.
  change 1 with (Z.ones 1) at 1. rewrite Z.land_ones by lia.
  rewrite Z.shiftr_div_pow2 by lia. change (2 ^ 1) with 2.
  rewrite <- Z.bit0_odd, Z.bit0_eqb.
  pose proof (Z.mod_pos_bound r 2 eq_refl).
  destruct (r mod 2 =? 0) eqn:E0, (r mod 2 =? 1) eqn:E1; simpl; try lia.
  now rewrite Z.lxor_0_r.
Qed.

Lemma crc32_spec_step_fits (r : Z) : fits32 r -> fits32 (crc32_spec_step r).
Proof.
  intros Hr. unfold crc32_spec_step. apply lxor_fits32.
  - split; [apply Z.div_pos; lia | apply Z.div_lt_upper_bound; lia].
  - destruct (Z.odd r); lia.
Qed.

Lemma crc32_bits_spec (n : nat) (r : Z) :
  crc32_bits n r = Nat.iter n crc32_spec_step r.
Proof.
  revert r. induction n as [|n IH]; intros r; [reflexivity|].
  cbn [crc32_bits]. rewrite IH, crc32_bit_spec. symmetry. apply Nat.iter_succ_r.
Qed.

Lemma iter_step_fits (n : nat) (r : Z) :
  fits32 r -> fits32 (Nat.iter n crc32_spec_step r).
Proof.
  intros Hr. induction n as [|n IH]; [exact Hr|].
  cbn [Nat.iter nat_rect]. now apply crc32_spec_step_fits.
Qed.

Lemma crc32_spec_byte_fits (r b : Z) : fits32 r -> fits32 (crc32_spec_byte r b).
Proof.
  intros Hr. apply iter_step_fits, lxor_fits32; [exact Hr|].
  pose proof (Z.mod_pos_bound b 256 eq_refl). lia.
Qed.

Lemma crc32_loop_spec (data : list Z) (r : Z) :
  crc32_loop data r = fold_left crc32_spec_byte data r.
Proof.
  revert r. induction data as [|b data IH]; intros r; [reflexivity|].
  cbn [crc32_loop fold_left]. rewrite crc32_bits_spec. apply IH.
Qed.

Lemma fold_crc_fits (data : list Z) (r : Z) :
  fits32 r -> fits32 (fold_left crc32_spec_byte data r).
Proof.
  revert r. induction data as [|b data IH]; intros r Hr; [exact Hr|].
  cbn [fold_left]. now apply IH, crc32_spec_byte_fits.
Qed.

Lemma complement32 (x : Z) : fits32 x -> u32 (Z.lnot x) = Z.lxor x 0xFFFFFFFF.
Proof.
  intros Hx. unfold u32. change 0xFFFFFFFF with (Z.ones 32).
  apply Z.bits_inj'. intros i Hi.
  rewrite Z.lxor_spec. destruct (Z_lt_le_dec i 32).
  - rewrite Z.mod_pow2_bits_low, Z.lnot_spec, Z.ones_spec_low by lia.
    now destruct (Z.testbit x i).
  - rewrite Z.mod_pow2_bits_high, Z.ones_spec_high, high_bits_clear by lia.
    reflexivity.
Qed.

Lemma crc32_fits (data : list Z) : fits32 (crc32 data).
Proof. unfold crc32, u32. apply Z.mod_pos_bound. lia. Qed.

End Crc32Facts.

(** C6.  [crc32] is the standard reflected CRC-32 of the specification:
    register started at [0xFFFFFFFF], each byte XORed into the low byte,
    eight right shifts with a conditional XOR of [0xEDB88320], final
    complement; on the nine ASCII bytes of "123456789" it returns
    [0xCBF43926]. *)
Theorem crc32_is_reflected_crc32 :
  (forall data : list Z, crc32 data = crc32_spec data)
  /\ crc32 (ascii_bytes "123456789") = 0xCBF43926.
Proof.
  split; [|vm_compute; reflexivity].
  intros data. unfold crc32, crc32_spec.
  rewrite crc32_loop_spec. apply complement32, fold_crc_fits. lia.
Qed.

(** ** CommandDispatcher *)

Lemma command_of_code (c : CommandCodes) : command_of_byte (code c) = Some c.
Proof. destruct c; reflexivity. Qed.

Lemma args_ok_wrong_length (rx : list Z) (len count : Z) :
  msg_payload_length rx <> len -> args_ok rx len count = false.
Proof.
  intros H. unfold args_ok.
  destruct (Z.eqb_spec (msg_payload_length rx) len); [contradiction|reflexivity].
Qed.

Lemma args_ok_wrong_channel (rx : list Z) (len count : Z) :
  count <= msg_channel rx -> args_ok rx len count = false.
Proof.
  intros H. unfold args_ok.
  destruct (Z.ltb_spec (msg_channel rx) count); [lia|apply andb_false_r].
Qed.

(** Unfolds the [switch] at a known command code. *)
Ltac enter_case Hcmd :=
  unfold dispatch; rewrite Hcmd, command_of_code;
  cbv beta iota zeta delta
    [case_STEPPER_MOVE_STEPS case_STEPPER_MOVE_AT_SPEED
     case_STEPPER_SET_SPEED_LIMITS case_STEPPER_SET_ACCELERATION
     case_STEPPER_IS_STOPPED case_STEPPER_GET_POSITION
     case_STEPPER_SET_POSITION case_STEPPER_HOME
     case_STEPPER_DRV_SET_ENABLED case_STEPPER_DRV_SET_MICROSTEPS
     case_STEPPER_DRV_SET_CURRENT case_STEPPER_DRV_READ_REGISTER
     case_STEPPER_DRV_WRITE_REGISTER case_DIGITAL_READ case_DIGITAL_WRITE].

Ltac close_bad_arguments Hcmd :=
  unfold bad_arguments, exception_reply, reply, argument_error;
  rewrite Hcmd; reflexivity.

(** C7.  A per-axis command (stepper motion or stepper driver) whose
    channel is at least the axis count is answered with the command code
    with the exception bit set and an empty payload, and the device is
    left exactly as it was: no axis or driver operation is invoked. *)
Theorem axis_channel_out_of_range_is_argument_error
    (w : World) (d : Device) (rx : list Z) (c : CommandCodes) :
  table_channel_target c = Some AxisTarget ->
  msg_command rx = code c ->
  STEPPER_COUNT <= msg_channel rx ->
  dispatch w d rx = Break (argument_error rx c) d.
Proof.
  intros Htarget Hcmd Hch.
  destruct c; try discriminate Htarget; enter_case Hcmd;
    rewrite args_ok_wrong_channel by exact Hch; close_bad_arguments Hcmd.
Qed.

Lemma axis_channel_out_of_range_witness :
  let rx := request_bytes 0 0x2e 4 [0; 0; 0; 0] in
  table_channel_target CMD_STEPPER_DRV_READ_REGISTER = Some AxisTarget
  /\ msg_command rx = code CMD_STEPPER_DRV_READ_REGISTER
  /\ STEPPER_COUNT <= msg_channel rx
  /\ dispatch quiet_world boot_device rx
     = Break (argument_error rx CMD_STEPPER_DRV_READ_REGISTER) boot_device.
Proof.
  intros rx.
  assert (STEPPER_COUNT <= msg_channel rx) as Hch by (vm_compute; discriminate).
  split; [reflexivity|]. split; [reflexivity|]. split; [exact Hch|].
  apply (axis_channel_out_of_range_is_argument_error
           quiet_world boot_device rx CMD_STEPPER_DRV_READ_REGISTER);
    [reflexivity | reflexivity | exact Hch].
Defined.




(** C4 at a negative sensor channel.  With the sensor-channel field set
    to -1 the guard [home_pin >= DIGITAL_INPUT_COUNT] does not fire: the
    table is read at index -1, homing is armed on whatever that read
    returns, and the response carries the plain command code. *)
Theorem home_negative_sensor_is_armed (w : World) :
  let rx := request_bytes 0 0x17 0
              [100; 0; 0; 0; 255; 255; 255; 255; 1; 0; 0; 0] in
  msg_payload_length rx = 12
  /\ msg_channel rx < STEPPER_COUNT
  /\ msg_payload_s32 rx 4 = -1
  /\ exists d',
       dispatch w boot_device rx = Break (reply rx 0x17 0 []) d'
       /\ trace d' = trace boot_device
                     ++ [InputPinTableRead (-1);
                         StepperHome 0 100 (beside_input_pins w (-1)) true]
       /\ mode (stepper d' 0) = HOMING
       /\ homing_sensor (stepper d' 0) = beside_input_pins w (-1).
Proof.
  intros rx. repeat split; try reflexivity.
  eexists. repeat split; reflexivity.
Qed.

(** The guard of HOME does refuse a sensor channel at or above the input
    count. *)
Lemma home_sensor_too_large_is_argument_error
    (w : World) (d : Device) (rx : list Z) :
  msg_command rx = code CMD_STEPPER_HOME ->
  DIGITAL_INPUT_COUNT <= msg_payload_s32 rx 4 ->
  dispatch w d rx = Break (argument_error rx CMD_STEPPER_HOME) d.
Proof.
  intros Hcmd Hpin. enter_case Hcmd.
  destruct (args_ok rx 12 STEPPER_COUNT); [|close_bad_arguments Hcmd].
  destruct (Z.geb_spec (msg_payload_s32 rx 4) DIGITAL_INPUT_COUNT); [|lia].
  close_bad_arguments Hcmd.
Qed.

Lemma byte_at_range (buf : list Z) (i : Z) : 0 <= byte_at buf i < 256.
Proof.
  unfold byte_at, u8. destruct (i <? 0); [lia|].
  apply Z.mod_pos_bound. lia.
Qed.

(** ** The response *)

(** Takes apart the conditionals of a handler found in hypothesis [H]. *)
Ltac split_handler H :=
  repeat match type of H with
         | context [match ?e with pair _ _ => _ end] => destruct e eqn:?
         | context [match ?o with Some _ => _ | None => _ end] => destruct o eqn:?
         | context [if ?b then _ else _] => destruct b eqn:?
         end.

Ltac open_switch H :=
  unfold dispatch in H;
  match type of H with
  | context [command_of_byte ?b] =>
      destruct (command_of_byte b) as [[]|]
  end;
  cbv beta iota zeta delta
    [case_INIT case_PING case_default
     case_STEPPER_MOVE_STEPS case_STEPPER_MOVE_AT_SPEED
     case_STEPPER_SET_SPEED_LIMITS case_STEPPER_SET_ACCELERATION
     case_STEPPER_IS_STOPPED case_STEPPER_GET_POSITION
     case_STEPPER_SET_POSITION case_STEPPER_HOME
     case_STEPPER_DRV_SET_ENABLED case_STEPPER_DRV_SET_MICROSTEPS
     case_STEPPER_DRV_SET_CURRENT case_STEPPER_DRV_READ_REGISTER
     case_STEPPER_DRV_WRITE_REGISTER case_DIGITAL_READ case_DIGITAL_WRITE
     bad_arguments exception_reply] in H.

(** Whatever a handler leaves for transmission echoes the request's
    address and channel. *)
Lemma response_echoes_address_and_channel
    (w : World) (d d' : Device) (rx : list Z) (resp : Message) :
  dispatch w d rx = Break resp d' ->
  dev_address resp = msg_dev_address rx /\ channel resp = msg_channel rx.
Proof.
  intros H. open_switch H; split_handler H;
    inversion H; subst; split; reflexivity.
Qed.

(** The bytes a handler stores behind the header are as many as the
    [payload_length] it sets, so [message_bytes] is the message sent. *)
Lemma response_payload_fits
    (w : World) (d d' : Device) (rx : list Z) (resp : Message) :
  dispatch w d rx = Break resp d' ->
  payload_length resp = Z.of_nat (length (payload resp)).
Proof.
  intros H. open_switch H; split_handler H;
    inversion H; subst; try reflexivity.
  - match goal with
    | E : dump_configuration _ = _ |- _ =>
        vm_compute in E; inversion E; subst; reflexivity
    end.
  - unfold reply. cbn [payload_length payload]. unfold msg_payload_copy.
    rewrite List.length_map, List.length_seq, Z2Nat.id; [reflexivity|].
    apply byte_at_range.
Qed.

(** A message whose handler ends in [break] is answered in the same turn,
    with one frame, and is then done with. *)
Lemma break_is_answered_once
    (COBS_encode : list Z -> Z * list Z) (w : World) (st : MainState)
    (resp : Message) (d' : Device) (enc_len : Z) (tx_buffer : list Z) :
  0 < msg_len st ->
  dispatch w (device st) (rx_message st) = Break resp d' ->
  4 + payload_length resp + 4 <= TX_MESSAGE_SIZE ->
  COBS_encode
    (buffer_bytes (message_bytes resp) 0 (4 + payload_length resp)
     ++ bytes_of_u32
          (crc32 (buffer_bytes (message_bytes resp) 0 (4 + payload_length resp))))
  = (enc_len, tx_buffer) ->
  0 <= enc_len ->
  process COBS_encode w st
  = Some ({| rx_buffer := rx_buffer st; msg_len := 0;
             rx_message := rx_message st; device := d' |},
          [firstn (Z.to_nat enc_len) tx_buffer]).
Proof.
  intros Hlen Hdisp Hfit Henc Hpos. unfold process, send_response.
  destruct (Z.ltb_spec 0 (msg_len st)); [|lia].
  rewrite Hdisp.
  destruct (Z.ltb_spec TX_MESSAGE_SIZE (4 + payload_length resp + 4)); [lia|].
  rewrite Henc.
  destruct (Z.ltb_spec enc_len 0); [lia|]. reflexivity.
Qed.

(** ** Requests that are never answered *)

Lemma microstep_setting_none (v : Z) :
  ~ List.In v [1; 2; 4; 8; 16; 32] -> microstep_setting v = None.
Proof.
  intros H. unfold microstep_setting.
  repeat match goal with
         | |- context [?a =? ?b] =>
             destruct (Z.eqb_spec a b);
             [exfalso; apply H; subst; simpl; tauto|]
         end.
  reflexivity.
Qed.

Lemma same_state (st : MainState) :
  {| rx_buffer := rx_buffer st; msg_len := msg_len st;
     rx_message := rx_message st; device := device st |} = st.
Proof. destruct st; reflexivity. Qed.

Section Unanswered.

Variable COBS_decode : list Z -> list Z -> Z * list Z.
Variable COBS_encode : list Z -> Z * list Z.
Variable w : World.

Lemma idle_forever (st : MainState) :
  main_iteration COBS_decode COBS_encode w st [] = Some (st, [], []) ->
  forall n, main_loop COBS_decode COBS_encode w n st [] = Some (st, [], []).
Proof.
  intros Hit n. induction n as [|n IH]; [reflexivity|].
  cbn [main_loop]. rewrite Hit. cbn. rewrite IH. reflexivity.
Qed.

Lemma bad_microsteps_continue (d : Device) (rx : list Z) :
  msg_command rx = code CMD_STEPPER_DRV_SET_MICROSTEPS ->
  msg_payload_length rx = 4 ->
  msg_channel rx < STEPPER_COUNT ->
  ~ List.In (msg_payload_u32 rx 0) [1; 2; 4; 8; 16; 32] ->
  dispatch w d rx = Continue (exception_reply rx) d.
Proof.
  intros Hcmd Hlen Hch Hval. enter_case Hcmd.
  unfold args_ok. rewrite Hlen, Z.eqb_refl.
  destruct (Z.ltb_spec (msg_channel rx) STEPPER_COUNT); [|lia].
  cbn [andb]. now rewrite microstep_setting_none.
Qed.

End Unanswered.

(** C2 at a DRV_SET_MICROSTEPS request.  A verified message that asks for
    a microstep value outside {1,2,4,8,16,32} on a valid axis leaves the
    [switch] through [continue]: nothing is sent and [msg_len] is not
    cleared, so however often the main loop turns without new input, it
    goes through the same message again and still sends nothing. *)
Theorem verified_bad_microsteps_request_is_never_answered
    (COBS_decode : list Z -> list Z -> Z * list Z)
    (COBS_encode : list Z -> Z * list Z) (w : World) (st : MainState) :
  0 < msg_len st ->
  msg_command (rx_message st) = code CMD_STEPPER_DRV_SET_MICROSTEPS ->
  msg_payload_length (rx_message st) = 4 ->
  msg_channel (rx_message st) < STEPPER_COUNT ->
  ~ List.In (msg_payload_u32 (rx_message st) 0) [1; 2; 4; 8; 16; 32] ->
  forall n, main_loop COBS_decode COBS_encode w n st [] = Some (st, [], []).
Proof.
  intros Hlen Hcmd Hplen Hch Hval. apply idle_forever.
  unfold main_iteration, process. cbn [receive mbind option_bind].
  destruct (Z.ltb_spec 0 (msg_len st)); [|lia].
  rewrite (bad_microsteps_continue w _ _ Hcmd Hplen Hch Hval).
  now rewrite same_state.
Qed.

Lemma verified_bad_microsteps_witness :
  let st := bad_microsteps_received in
  0 < msg_len st
  /\ msg_command (rx_message st) = code CMD_STEPPER_DRV_SET_MICROSTEPS
  /\ msg_payload_length (rx_message st) = 4
  /\ msg_channel (rx_message st) < STEPPER_COUNT
  /\ ~ List.In (msg_payload_u32 (rx_message st) 0) [1; 2; 4; 8; 16; 32]
  /\ main_loop Cobs.COBS_decode Cobs.COBS_encode quiet_world 3 st []
     = Some (st, [], []).
Proof.
  intros st.
  assert (~ List.In (msg_payload_u32 (rx_message st) 0) [1; 2; 4; 8; 16; 32])
    as Hval by (vm_compute; intuition discriminate).
  split; [reflexivity|]. split; [reflexivity|]. split; [reflexivity|].
  split; [reflexivity|]. split; [exact Hval|].
  apply (verified_bad_microsteps_request_is_never_answered
           Cobs.COBS_decode Cobs.COBS_encode quiet_world st);
    [reflexivity | reflexivity | reflexivity | reflexivity | exact Hval].
Defined.

(** C1 on the wire.  The firmware, fresh from start-up, receives a
    well-formed DRV_SET_MICROSTEPS request for axis 0 with payload length
    4 and the value 3.  The message passes all three gates ([msg_len]
    becomes 8), and then no turn of the main loop ever hands anything to
    [stdio_put_string]: the argument-error response is written into the
    transmit message but skipped by [continue]. *)
Theorem set_microsteps_bad_value_sends_nothing (n : nat) :
  main_loop Cobs.COBS_decode Cobs.COBS_encode quiet_world (S n)
    boot_state bad_microsteps_wire
  = Some (bad_microsteps_received, [], []).
Proof.
  cbn [main_loop].
  assert (main_iteration Cobs.COBS_decode Cobs.COBS_encode quiet_world
            boot_state bad_microsteps_wire
          = Some (bad_microsteps_received, [], [])) as -> by (vm_compute; reflexivity).
  cbn [mbind option_bind].
  rewrite idle_forever; [reflexivity|].
  vm_compute. reflexivity.
Qed.

(** A valid value on the same axis is answered at once. *)
Example set_microsteps_good_value_is_answered :
  exists st,
    main_iteration Cobs.COBS_decode Cobs.COBS_encode quiet_world boot_state
      (on_wire (with_checksum (request_bytes 0 0x21 0 [8; 0; 0; 0])))
    = Some (st, [], [[1; 2; 33; 1; 5; 203; 243; 203; 24]])
    /\ msg_len st = 0.
Proof. eexists. split; [vm_compute; reflexivity | reflexivity]. Qed.

(** ** The minimum-length gate *)

(** C5 at a message of seven bytes.  The stuffed frame below is eight
    bytes long, so the test [rx_buffer_pos < 8] lets it through; it
    unstuffs to the seven bytes [00 14 00 47 0E EF D1], address, command,
    channel and the CRC-32 of those three.  The message is verified with
    [msg_len = 3] and dispatched, its first checksum byte is read as
    [payload_length], and a response goes out. *)
Theorem seven_byte_message_is_dispatched :
  let frame := [1; 2; 20; 5; 71; 14; 239; 209] in
  Cobs.decode frame = Some (with_checksum [0; 0x14; 0])
  /\ length (with_checksum [0; 0x14; 0]) = 7%nat
  /\ exists st,
       receive Cobs.COBS_decode boot_state (frame ++ [0]) = Some (st, [])
       /\ msg_len st = 3
       /\ msg_payload_length (rx_message st) = 71
       /\ process Cobs.COBS_encode quiet_world st
          = Some ({| rx_buffer := []; msg_len := 0;
                     rx_message := rx_message st; device := boot_device |},
                  [[1; 2; 148; 1; 5; 48; 207; 94; 219]]).
Proof.
  intros frame. split; [vm_compute; reflexivity|]. split; [reflexivity|].
  eexists. split; [vm_compute; reflexivity|].
  split; [reflexivity|]. split; [reflexivity|].
  vm_compute. reflexivity.
Qed.

(** Frames of fewer than eight stuffed bytes are ignored, and the bytes
    stay in [rx_buffer]. *)
Lemma short_frame_is_ignored
    (COBS_decode : list Z -> list Z -> Z * list Z) (st : MainState) :
  rx_buffer_pos st < 8 ->
  end_of_message COBS_decode st
  = Some {| rx_buffer := rx_buffer st; msg_len := 0;
            rx_message := rx_message st; device := device st |}.
Proof.
  intros H. unfold end_of_message.
  destruct (Z.ltb_spec (rx_buffer_pos st) 8); [reflexivity|lia].
Qed.

(** ** The address and checksum gates *)

Section Gates.

Variable COBS_decode : list Z -> list Z -> Z * list Z.
Variable COBS_encode : list Z -> Z * list Z.
Variable w : World.




End Gates.



(** ** INIT *)

Section Init.

Variable w : World.







End Init.




(** ** What the dispatcher reads *)

Section DeclaredPayload.

Variables rx1 rx2 : list Z.
Hypothesis Hsame : same_prefix rx1 rx2 (4 + msg_payload_length rx1).

Lemma payload_length_nonneg : 0 <= msg_payload_length rx1.
Proof. apply byte_at_range. Qed.

Lemma same_dev_address : msg_dev_address rx1 = msg_dev_address rx2.
Proof. pose proof payload_length_nonneg. apply Hsame. lia. Qed.

Lemma same_command : msg_command rx1 = msg_command rx2.
Proof. pose proof payload_length_nonneg. apply Hsame. lia. Qed.

Lemma same_channel : msg_channel rx1 = msg_channel rx2.
Proof. pose proof payload_length_nonneg. apply Hsame. lia. Qed.

Lemma same_payload_length : msg_payload_length rx1 = msg_payload_length rx2.
Proof. pose proof payload_length_nonneg. apply Hsame. lia. Qed.

Lemma same_payload_byte (i : Z) :
  0 <= i < msg_payload_length rx1 ->
  msg_payload_byte rx1 i = msg_payload_byte rx2 i.
Proof. intros Hi. apply Hsame. lia. Qed.

Lemma same_payload_u32 (off : Z) :
  0 <= off -> off + 4 <= msg_payload_length rx1 ->
  msg_payload_u32 rx1 off = msg_payload_u32 rx2 off.
Proof.
  intros Hoff Hfit. unfold msg_payload_u32, read_u32.
  rewrite !Hsame by lia. reflexivity.
Qed.

Lemma same_payload_s32 (off : Z) :
  0 <= off -> off + 4 <= msg_payload_length rx1 ->
  msg_payload_s32 rx1 off = msg_payload_s32 rx2 off.
Proof.
  intros Hoff Hfit. unfold msg_payload_s32. f_equal.
  exact (same_payload_u32 off Hoff Hfit).
Qed.

Lemma same_payload_copy :
  msg_payload_copy rx1 (msg_payload_length rx1)
  = msg_payload_copy rx2 (msg_payload_length rx1).
Proof.
  unfold msg_payload_copy. apply List.map_ext_in.
  intros i Hi. apply List.in_seq in Hi. apply same_payload_byte. lia.
Qed.

Lemma same_args_ok (len count : Z) : args_ok rx1 len count = args_ok rx2 len count.
Proof. unfold args_ok. now rewrite same_payload_length, same_channel. Qed.

Lemma args_ok_length (len count : Z) :
  args_ok rx2 len count = true -> msg_payload_length rx1 = len.
Proof.
  unfold args_ok. rewrite same_payload_length.
  intros H. apply andb_prop in H. lia.
Qed.

Lemma same_reply (c n : Z) (p : list Z) : reply rx1 c n p = reply rx2 c n p.
Proof. unfold reply. now rewrite same_dev_address, same_channel. Qed.

Lemma same_exception_reply : exception_reply rx1 = exception_reply rx2.
Proof. unfold exception_reply. now rewrite same_reply, same_command. Qed.

(** Rewrites every read of [rx1] a handler makes, once its length test
    has passed, into the read of [rx2]. *)
Ltac align_reads E :=
  pose proof (args_ok_length _ _ E);
  rewrite ?same_command, ?same_channel;
  repeat match goal with
         | |- context [msg_payload_s32 rx1 ?o] =>
             rewrite (same_payload_s32 o) by lia
         | |- context [msg_payload_u32 rx1 ?o] =>
             rewrite (same_payload_u32 o) by lia
         | |- context [msg_payload_byte rx1 ?o] =>
             rewrite (same_payload_byte o) by lia
         end;
  repeat match goal with
         | |- context [stepper_call ?id ?e ?m ?d] =>
             destruct (stepper_call id e m d)
         | |- context [match ?o with Some _ => _ | None => _ end] =>
             destruct o
         | |- context [if ?b then _ else _] => destruct b
         end;
  rewrite ?same_reply, ?same_exception_reply.

Lemma dispatch_same_prefix (w : World) (d : Device) :
  dispatch w d rx1 = dispatch w d rx2.
Proof.
  unfold dispatch. rewrite same_command.
  destruct (command_of_byte (msg_command rx2)) as [c|];
    [destruct c|];
    cbv beta iota zeta delta
      [case_INIT case_PING case_default
       case_STEPPER_MOVE_STEPS case_STEPPER_MOVE_AT_SPEED
       case_STEPPER_SET_SPEED_LIMITS case_STEPPER_SET_ACCELERATION
       case_STEPPER_IS_STOPPED case_STEPPER_GET_POSITION
       case_STEPPER_SET_POSITION case_STEPPER_HOME
       case_STEPPER_DRV_SET_ENABLED case_STEPPER_DRV_SET_MICROSTEPS
       case_STEPPER_DRV_SET_CURRENT case_STEPPER_DRV_READ_REGISTER
       case_STEPPER_DRV_WRITE_REGISTER case_DIGITAL_READ case_DIGITAL_WRITE
       bad_arguments];
    rewrite ?same_args_ok, ?same_exception_reply;
    try (rewrite ?same_reply; reflexivity);
    try (destruct (dump_configuration 246); rewrite same_reply; reflexivity);
    try (rewrite same_payload_copy, same_payload_length, same_reply; reflexivity);
    match goal with
    | |- context [args_ok rx2 ?len ?count] =>
        destruct (args_ok rx2 len count) eqn:E; [align_reads E|]; reflexivity
    end.
Qed.

End DeclaredPayload.

(** C10.  Two verified messages ([msg_len] positive in both, whatever
    its value) that agree on the four header bytes and on the first
    [payload_length] payload bytes, met in the same device state and the
    same surroundings, leave the command switch the same way, with the
    same response and the same device afterwards, and the same frames
    are sent: the decoded length plays no part beyond being positive. *)
Theorem dispatch_ignores_decoded_length
    (COBS_encode : list Z -> Z * list Z) (w : World) (st1 st2 : MainState) :
  0 < msg_len st1 ->
  0 < msg_len st2 ->
  device st1 = device st2 ->
  same_prefix (rx_message st1) (rx_message st2)
    (4 + msg_payload_length (rx_message st1)) ->
  dispatch w (device st1) (rx_message st1)
  = dispatch w (device st2) (rx_message st2)
  /\ outcome (process COBS_encode w st1) = outcome (process COBS_encode w st2).
Proof.
  intros Hlen1 Hlen2 Hdev Hsame.
  assert (dispatch w (device st1) (rx_message st1)
          = dispatch w (device st2) (rx_message st2)) as Hdisp
    by (rewrite Hdev; now apply dispatch_same_prefix).
  split; [exact Hdisp|].
  unfold process. rewrite Hdisp.
  destruct (Z.ltb_spec 0 (msg_len st1)); [|lia].
  destruct (Z.ltb_spec 0 (msg_len st2)); [|lia].
  destruct (dispatch w (device st2) (rx_message st2)) as [resp d'|resp d'|d'];
    [|reflexivity|reflexivity].
  unfold send_response.
  destruct (TX_MESSAGE_SIZE <? 4 + payload_length resp + 4); [reflexivity|].
  destruct (COBS_encode _) as [enc_len tx_buffer].
  destruct (enc_len <? 0); reflexivity.
Qed.

Lemma dispatch_ignores_decoded_length_witness :
  let st1 := ping_exact_received in
  let st2 := ping_padded_received in
  receive Cobs.COBS_decode boot_state ping_exact_wire = Some (st1, [])
  /\ receive Cobs.COBS_decode boot_state ping_padded_wire = Some (st2, [])
  /\ 0 < msg_len st1
  /\ 0 < msg_len st2
  /\ device st1 = device st2
  /\ same_prefix (rx_message st1) (rx_message st2)
       (4 + msg_payload_length (rx_message st1))
  /\ dispatch quiet_world (device st1) (rx_message st1)
     = dispatch quiet_world (device st2) (rx_message st2)
  /\ outcome (process Cobs.COBS_encode quiet_world st1)
     = outcome (process Cobs.COBS_encode quiet_world st2).
Proof.
  intros st1 st2.
  assert (same_prefix (rx_message st1) (rx_message st2)
            (4 + msg_payload_length (rx_message st1))) as Hsame.
  { change (4 + msg_payload_length (rx_message st1)) with 6.
    intros i Hi.
    assert (i = 0 \/ i = 1 \/ i = 2 \/ i = 3 \/ i = 4 \/ i = 5)
      as [->|[->|[->|[->|[->| ->]]]]] by lia; reflexivity. }
  split; [vm_compute; reflexivity|]. split; [vm_compute; reflexivity|].
  split; [reflexivity|]. split; [reflexivity|]. split; [reflexivity|].
  split; [exact Hsame|].
  apply (dispatch_ignores_decoded_length
           Cobs.COBS_encode quiet_world st1 st2);
    [reflexivity | reflexivity | reflexivity | exact Hsame].
Defined.

(** The echo of the example above. *)
Example ping_echo :
  process Cobs.COBS_encode quiet_world ping_padded_received
  = Some ({| rx_buffer := []; msg_len := 0;
             rx_message := rx_message ping_padded_received;
             device := boot_device |},
          [[1; 2; 2; 8; 2; 65; 66; 85; 120; 54; 185]]).
Proof. vm_compute. reflexivity. Qed.

(** * Further properties of the command switch *)

Lemma command_of_byte_inv (b : Z) (c : CommandCodes) :
  command_of_byte b = Some c -> b = code c.
Proof.
  unfold command_of_byte. intros H. apply List.find_some in H.
  destruct H as [_ H]. lia.
Qed.

(** X1.  A command byte without a [case] label (the servo codes, [0xFF]
    and every byte that is no enumerator) is answered with
    [CMD_BAD_COMMAND], an empty payload and the address and channel of
    the request; the device is left as it was. *)
Theorem unknown_command_is_bad_command
    (w : World) (d : Device) (rx : list Z) :
  (forall c, List.In c case_labels -> msg_command rx <> code c) ->
  dispatch w d rx
  = Break {| dev_address := msg_dev_address rx; command := 0xFF;
             channel := msg_channel rx; payload_length := 0;
             payload := [] |} d.
Proof.
  intros Hnone. unfold dispatch.
  destruct (command_of_byte (msg_command rx)) as [c|] eqn:E; [|reflexivity].
  apply command_of_byte_inv in E.
  destruct c; try reflexivity;
    exfalso; eapply Hnone; try exact E; simpl; tauto.
Qed.

Lemma unknown_command_witness :
  let rx := request_bytes 0 0x40 0 [1; 0; 0; 0] in
  (forall c, List.In c case_labels -> msg_command rx <> code c)
  /\ dispatch quiet_world boot_device rx
     = Break {| dev_address := 0; command := 0xFF; channel := 0;
                payload_length := 0; payload := [] |} boot_device.
Proof.
  intros rx.
  assert (forall c, List.In c case_labels -> msg_command rx <> code c) as H.
  { intros c Hc. simpl in Hc.
    repeat (destruct Hc as [<-|Hc]; [vm_compute; discriminate|]).
    destruct Hc. }
  split; [exact H|].
  exact (unknown_command_is_bad_command quiet_world boot_device rx H).
Defined.

(** X2.  DIGITAL_READ with a channel at or above the input count and
    DIGITAL_WRITE with a channel at or above the output count are
    answered with the argument error; no pin is read or driven. *)
Theorem digital_channel_out_of_range_is_argument_error
    (w : World) (d : Device) (rx : list Z) (c : CommandCodes) :
  (c = CMD_DIGITAL_READ /\ DIGITAL_INPUT_COUNT <= msg_channel rx)
  \/ (c = CMD_DIGITAL_WRITE /\ DIGITAL_OUTPUT_COUNT <= msg_channel rx) ->
  msg_command rx = code c ->
  dispatch w d rx = Break (argument_error rx c) d.
Proof.
  intros [[-> Hch]|[-> Hch]] Hcmd; enter_case Hcmd;
    rewrite args_ok_wrong_channel by exact Hch; close_bad_arguments Hcmd.
Qed.

Lemma digital_channel_out_of_range_witness :
  let rx := request_bytes 0 0x31 2 [1; 0; 0; 0] in
  ((CMD_DIGITAL_WRITE = CMD_DIGITAL_READ /\ DIGITAL_INPUT_COUNT <= msg_channel rx)
   \/ (CMD_DIGITAL_WRITE = CMD_DIGITAL_WRITE
       /\ DIGITAL_OUTPUT_COUNT <= msg_channel rx))
  /\ msg_command rx = code CMD_DIGITAL_WRITE
  /\ dispatch quiet_world boot_device rx
     = Break (argument_error rx CMD_DIGITAL_WRITE) boot_device.
Proof.
  intros rx.
  assert ((CMD_DIGITAL_WRITE = CMD_DIGITAL_READ
           /\ DIGITAL_INPUT_COUNT <= msg_channel rx)
          \/ (CMD_DIGITAL_WRITE = CMD_DIGITAL_WRITE
              /\ DIGITAL_OUTPUT_COUNT <= msg_channel rx)) as H
    by (right; split; [reflexivity | vm_compute; discriminate]).
  split; [exact H|]. split; [reflexivity|].
  exact (digital_channel_out_of_range_is_argument_error
           quiet_world boot_device rx CMD_DIGITAL_WRITE H eq_refl).
Defined.

(** X3.  HOME is refused with the argument error exactly when the payload
    length is not 12, the channel is no axis, or the sensor channel, read
    as a signed word, is at or above the input count.  A negative sensor
    channel is not among the refused ones. *)
Theorem home_is_refused_exactly_when
    (w : World) (d : Device) (rx : list Z) :
  msg_command rx = code CMD_STEPPER_HOME ->
  dispatch w d rx = Break (argument_error rx CMD_STEPPER_HOME) d
  <-> (msg_payload_length rx <> 12
       \/ STEPPER_COUNT <= msg_channel rx
       \/ DIGITAL_INPUT_COUNT <= msg_payload_s32 rx 4).
Proof.
  intros Hcmd. split.
  - intros H.
    destruct (Z.eq_dec (msg_payload_length rx) 12) as [Hlen|]; [|now left].
    destruct (Z_lt_le_dec (msg_channel rx) STEPPER_COUNT) as [Hch|];
      [|now right; left].
    destruct (Z_lt_le_dec (msg_payload_s32 rx 4) DIGITAL_INPUT_COUNT) as [Hpin|];
      [|now right; right].
    exfalso. revert H. enter_case Hcmd. unfold args_ok.
    rewrite Hlen, Z.eqb_refl.
    destruct (Z.ltb_spec (msg_channel rx) STEPPER_COUNT); [|lia].
    destruct (Z.geb_spec (msg_payload_s32 rx 4) DIGITAL_INPUT_COUNT); [lia|].
    cbn [andb]. destruct (stepper_call _ _ _ _) as [res d2].
    unfold reply, argument_error. rewrite Hcmd. intros Heq.
    inversion Heq.
  - intros [Hlen|[Hch|Hpin]]; enter_case Hcmd.
    + rewrite args_ok_wrong_length by exact Hlen. close_bad_arguments Hcmd.
    + rewrite args_ok_wrong_channel by exact Hch. close_bad_arguments Hcmd.
    + destruct (args_ok rx 12 STEPPER_COUNT); [|close_bad_arguments Hcmd].
      destruct (Z.geb_spec (msg_payload_s32 rx 4) DIGITAL_INPUT_COUNT); [|lia].
      close_bad_arguments Hcmd.
Qed.

Lemma home_is_refused_witness :
  let rx := request_bytes 0 0x17 0 [100; 0; 0; 0; 4; 0; 0; 0; 1; 0; 0; 0] in
  msg_command rx = code CMD_STEPPER_HOME
  /\ (dispatch quiet_world boot_device rx
      = Break (argument_error rx CMD_STEPPER_HOME) boot_device
      <-> (msg_payload_length rx <> 12
           \/ STEPPER_COUNT <= msg_channel rx
           \/ DIGITAL_INPUT_COUNT <= msg_payload_s32 rx 4)).
Proof.
  intros rx. split; [reflexivity|].
  exact (home_is_refused_exactly_when quiet_world boot_device rx eq_refl).
Defined.

Lemma nth_middle_bytes (pre data tail : list Z) (i : nat) :
  (i < length data)%nat ->
  nth (length pre + i) (pre ++ data ++ tail) 0 = nth i data 0.
Proof.
  intros Hi. rewrite List.app_nth2 by lia.
  replace (length pre + i - length pre)%nat with i by lia.
  now rewrite List.app_nth1.
Qed.

(** Reading back what lies between [pre] and [tail]. *)
Lemma buffer_bytes_middle (pre data tail : list Z) :
  buffer_bytes (pre ++ data ++ tail)
    (Z.of_nat (length pre)) (Z.of_nat (length data))
  = List.map u8 data.
Proof.
  unfold buffer_bytes. rewrite Nat2Z.id.
  set (f := fun i : nat =>
              byte_at (pre ++ data ++ tail)
                (Z.of_nat (length pre) + Z.of_nat i)).
  apply (List.nth_ext _ _ (f 0%nat) (u8 0)).
  - now rewrite !List.length_map, List.length_seq.
  - intros i Hi. rewrite List.length_map, List.length_seq in Hi.
    rewrite (List.map_nth f), (List.map_nth u8).
    rewrite List.seq_nth by exact Hi. cbn [Nat.add].
    subst f. cbv beta. unfold byte_at.
    destruct (Z.ltb_spec (Z.of_nat (length pre) + Z.of_nat i) 0); [lia|].
    rewrite <- Nat2Z.inj_add, Nat2Z.id. f_equal.
    now apply nth_middle_bytes.
Qed.

Lemma map_u8_bytes (data : list Z) :
  Forall (fun b => 0 <= b < 256) data -> List.map u8 data = data.
Proof.
  induction 1 as [|b data Hb _ IH]; [reflexivity|].
  cbn [List.map]. rewrite IH. unfold u8. now rewrite Z.mod_small.
Qed.

(** X4.  PING returns its payload: a request built from an address, a
    channel and up to 250 payload bytes, followed in [rx_message] by
    anything at all, is answered under the plain command code with the
    same address, channel, length and payload bytes, and the device is
    left as it was. *)
Theorem ping_echoes_payload
    (w : World) (d : Device) (addr chan : Z) (data tail : list Z) :
  0 <= addr < 256 ->
  0 <= chan < 256 ->
  Forall (fun b => 0 <= b < 256) data ->
  (length data <= 250)%nat ->
  dispatch w d (request_bytes addr 0x02 chan data ++ tail)
  = Break {| dev_address := addr; command := 0x02; channel := chan;
             payload_length := Z.of_nat (length data); payload := data |} d.
Proof.
  intros Haddr Hchan Hdata Hlen.
  set (rx := request_bytes addr 2 chan data ++ tail).
  assert (msg_dev_address rx = addr) as Ha
    by (change (msg_dev_address rx) with (u8 addr); apply Z.mod_small; lia).
  assert (msg_command rx = code CMD_PING) as Hc by reflexivity.
  assert (msg_channel rx = chan) as Hch
    by (change (msg_channel rx) with (u8 chan); apply Z.mod_small; lia).
  assert (msg_payload_length rx = Z.of_nat (length data)) as Hl
    by (change (msg_payload_length rx) with (u8 (Z.of_nat (length data)));
        apply Z.mod_small; lia).
  unfold dispatch. rewrite Hc, command_of_code. unfold case_PING, reply.
  rewrite Ha, Hch, Hl.
  unfold RX_MESSAGE_SIZE, TX_MESSAGE_SIZE.
  destruct (Z.leb_spec (4 + Z.of_nat (length data)) 254); [|lia].
  cbn [andb]. f_equal. f_equal.
  change (msg_payload_copy rx (Z.of_nat (length data)))
    with (buffer_bytes rx 4 (Z.of_nat (length data))).
  subst rx. unfold request_bytes. rewrite <- List.app_assoc.
  transitivity (List.map u8 data); [|now apply map_u8_bytes].
  exact (buffer_bytes_middle
           [addr; 2; chan; Z.of_nat (length data)] data tail).
Qed.

Lemma ping_echoes_payload_witness :
  0 <= 0 < 256
  /\ 0 <= 7 < 256
  /\ Forall (fun b => 0 <= b < 256) [0x41; 0x42]
  /\ (length [0x41; 0x42] <= 250)%nat
  /\ dispatch quiet_world boot_device
       (request_bytes 0 0x02 7 [0x41; 0x42] ++ [1; 2; 3; 4])
     = Break {| dev_address := 0; command := 0x02; channel := 7;
                payload_length := 2; payload := [0x41; 0x42] |} boot_device.
Proof.
  assert (Forall (fun b => 0 <= b < 256) [0x41; 0x42]) as Hd
    by (repeat constructor; lia).
  assert (length [0x41; 0x42] <= 250)%nat as Hl by (cbn; lia).
  split; [lia|]. split; [lia|]. split; [exact Hd|]. split; [exact Hl|].
  exact (ping_echoes_payload quiet_world boot_device 0 7 [0x41; 0x42]
           [1; 2; 3; 4] ltac:(lia) ltac:(lia) Hd Hl).
Defined.
